(** * pr-summary-bot/hello.py: the session lifecycle driver

    The script starts a Copilot client, creates one session, sends one
    prompt, waits for the reply, prints it, destroys the session and stops
    the client.  Only [client.stop()] sits in the [finally] block.

    The embedding is a state-and-exception monad over an abstract external
    world (the SDK and the standard output), with a log of every external
    call and of its outcome. *)

From Stdlib Require Import QArith.
From stdpp Require Import gmap strings list.

(** ** Values shared with the SDK *)

(** Modelled from the spec: the exception classes raised by the [copilot]
    package are not part of the repository; section 7 of the specification
    names four of them.  [OtherError] stands for any other Python exception
    (the specification types the failures of [destroy] and [stop] as a
    plain error). *)
Inductive exn : Type :=
| ConnectionError
| SessionCreationError
| TimeoutError
| RequestError
| OtherError (name : string).

(** The builtin exception of an attribute lookup on [None]. *)
Definition AttributeError : exn := OtherError "AttributeError".

(** A call either returns a value or raises. *)
Inductive result (A : Type) : Type :=
| Returned (a : A)
| Raised (e : exn).
Arguments Returned {A} a.
Arguments Raised {A} e.

Definition result_map {A B : Type} (f : A -> B) (r : result A) : result B :=
  match r with
  | Returned a => Returned (f a)
  | Raised e => Raised e
  end.

(** A reply of [send_and_wait], read through [response.data.content].
    [send_and_wait] hands back such a reply or [None]: its result is an
    [option response]. *)
Record response_data : Type := { content : string }.
Record response : Type := { data : response_data }.

(** The dict literals passed to the SDK. *)
Definition dict : Type := gmap string string.

(** The line feed written by [print] after its argument. *)
Definition LF : string := String (Ascii.ascii_of_nat 10) EmptyString.


(** ** The external world *)

(** What the script calls and does not define: the client and session
    objects of the SDK and the [print] builtin.  [W] is the state of the
    world outside the script; every call may change it and may raise.
    [send_and_wait] may also return [None] instead of a reply.
    Building the client object ([CopilotClient()]) performs no call. *)
Class External (client session W : Type) : Type := {
  CopilotClient : client;
  client_start : client -> W -> result unit * W;
  client_create_session : client -> dict -> W -> result session * W;
  session_send_and_wait :
    session -> dict -> Q -> W -> result (option response) * W;
  session_destroy : session -> W -> result unit * W;
  client_stop : client -> W -> result unit * W;
  builtin_print : string -> W -> result unit * W
}.

Section Driver.

Context {client session W : Type}.
Context `{EqDecision client, EqDecision session}.
Context `{Ext : External client session W}.

(** ** The log of external calls *)

Inductive call : Type :=
| CStart (c : client)
| CCreateSession (c : client) (config : dict)
| CSendAndWait (s : session) (request : dict) (timeout : Q)
| CPrint (text : string)
| CDestroy (s : session)
| CStop (c : client).

Inductive value : Type :=
| VNone
| VSession (s : session)
| VResponse (r : response).

Definition event : Type := call * result value.

(** ** The monad: world, log and standard output, with exceptions *)

Record state : Type := {
  world : W;
  trace : list event;
  stdout : string
}.

Definition M (A : Type) : Type := state -> result A * state.

Definition ret {A : Type} (a : A) : M A := fun st => (Returned a, st).

Definition raise {A : Type} (e : exn) : M A := fun st => (Raised e, st).

Definition bind {A B : Type} (m : M A) (k : A -> M B) : M B :=
  fun st =>
    match m st with
    | (Returned a, st1) => k a st1
    | (Raised e, st1) => (Raised e, st1)
    end.

(** [try: body finally: final].  The final block always runs; when it
    raises, its exception replaces the outcome of the body, otherwise the
    outcome of the body (value or exception) is kept. *)
Definition try_finally {A : Type} (body : M A) (final : M unit) : M A :=
  fun st =>
    match body st with
    | (r, st1) =>
        match final st1 with
        | (Returned _, st2) => (r, st2)
        | (Raised e, st2) => (Raised e, st2)
        end
    end.

(** An awaited SDK call: the world answers, the call and its outcome are
    logged. *)
Definition await {A : Type} (c : call) (inj : A -> value)
    (f : W -> result A * W) : M A :=
  fun st =>
    match f (world st) with
    | (r, w) =>
        (r, {| world := w;
               trace := trace st ++ [(c, result_map inj r)];
               stdout := stdout st |})
    end.

Definition start (c : client) : M unit :=
  await (CStart c) (fun _ => VNone) (client_start c).

Definition create_session (c : client) (config : dict) : M session :=
  await (CCreateSession c config) VSession (client_create_session c config).

(** What the log keeps of the result of [send_and_wait]. *)
Definition reply_value (reply : option response) : value :=
  match reply with
  | Some r => VResponse r
  | None => VNone
  end.

Definition send_and_wait (s : session) (request : dict) (timeout : Q)
    : M (option response) :=
  await (CSendAndWait s request timeout) reply_value
        (session_send_and_wait s request timeout).

(** The expression [response.data.content] of line 17: on [None] the
    lookup of [data] raises [AttributeError], and nothing is called. *)
Definition data_content (reply : option response) : M string :=
  match reply with
  | Some r => ret (content (data r))
  | None => raise AttributeError
  end.

Definition destroy (s : session) : M unit :=
  await (CDestroy s) (fun _ => VNone) (session_destroy s).

Definition stop (c : client) : M unit :=
  await (CStop c) (fun _ => VNone) (client_stop c).

(** [print(text)]: the text and a line feed reach the standard output when
    the call returns. *)
Definition print (text : string) : M unit :=
  fun st =>
    match builtin_print text (world st) with
    | (r, w) =>
        (r, {| world := w;
               trace := trace st ++ [(CPrint text, result_map (fun _ => VNone) r)];
               stdout := match r with
                         | Returned _ => stdout st +:+ text +:+ LF
                         | Raised _ => stdout st
                         end |})
    end.

Notation "x <- m ; k" := (bind m (fun x => k))
  (at level 100, m at next level, right associativity, only parsing).
Notation "m ;; k" := (bind m (fun _ => k))
  (at level 100, right associativity, only parsing).

(** ** The script *)

(** [main()], lines 5 to 22.  The prompt is the source literal, a Python
    string written here as its UTF-8 bytes; the timeout is the float
    [60.0], an exact rational. *)
Definition main : M unit :=
  let client := CopilotClient in
  start client ;;
  try_finally
    (session <- create_session client {[ "model" := "gpt-4.1" ]} ;
     response <- send_and_wait session
                   {[ "prompt" := "Pythonでfizzbuzzを書いて" ]}
                   (60 # 1)%Q ;
     text <- data_content response ;
     print text ;;
     destroy session)
    (stop client).

(** [asyncio.run(coro)] drives the coroutine to completion and hands back
    its value or its exception. *)
Definition asyncio_run {A : Type} (coro : M A) : M A := coro.

(** Line 25, from a fresh process: nothing logged, nothing written. *)
Definition script (w : W) : result unit * state :=
  asyncio_run main {| world := w; trace := []; stdout := "" |}.

Definition outcome (w : W) : result unit := fst (script w).
Definition calls (w : W) : list event := trace (snd (script w)).
Definition output (w : W) : string := stdout (snd (script w)).

(** The exit status of the interpreter: an exception that nobody handles
    ends the process with status 1. *)
Definition exit_status (r : result unit) : Z :=
  match r with
  | Returned _ => 0
  | Raised _ => 1
  end.

(** ** Observations on a log *)

Definition is_start (c : call) : bool :=
  match c with CStart _ => true | _ => false end.
Definition is_create_session (c : call) : bool :=
  match c with CCreateSession _ _ => true | _ => false end.
Definition is_send_and_wait (c : call) : bool :=
  match c with CSendAndWait _ _ _ => true | _ => false end.
Definition is_print (c : call) : bool :=
  match c with CPrint _ => true | _ => false end.
Definition is_destroy (c : call) : bool :=
  match c with CDestroy _ => true | _ => false end.
Definition is_stop (c : call) : bool :=
  match c with CStop _ => true | _ => false end.

Definition any_call (c : call) : bool := true.

(** How many times a kind of call was invoked. *)
Definition invocations (p : call -> bool) (tr : list event) : nat :=
  length (List.filter (fun ev => p (fst ev)) tr).

(** Whether a call of that kind returned normally. *)
Definition returned (p : call -> bool) (tr : list event) : bool :=
  existsb (fun ev => p (fst ev) &&
                     match snd ev with Returned _ => true | Raised _ => false end)
          tr.

(** The exception raised by the first failing call of that kind. *)
Fixpoint raised (p : call -> bool) (tr : list event) : option exn :=
  match tr with
  | [] => None
  | (c, Raised e) :: tr' => if p c then Some e else raised p tr'
  | (_, Returned _) :: tr' => raised p tr'
  end.

(** Whether [send_and_wait] returned a reply, not [None]. *)
Definition replied (tr : list event) : bool :=
  existsb (fun ev => match ev with
                     | (CSendAndWait _ _ _, Returned (VResponse _)) => true
                     | _ => false
                     end)
          tr.


(** The session an operation is invoked on. *)
Definition session_of (c : call) : option session :=
  match c with
  | CSendAndWait s _ _ | CDestroy s => Some s
  | _ => None
  end.

(** Some session operation is invoked after [destroy] was invoked on that
    session ([dead] holds the sessions [destroy] was already called on). *)
Fixpoint use_after_destroy (dead : list session) (tr : list event) : bool :=
  match tr with
  | [] => false
  | (c, _) :: tr' =>
      match session_of c with
      | Some s =>
          bool_decide (s ∈ dead)
          || use_after_destroy (if is_destroy c then s :: dead else dead) tr'
      | None => use_after_destroy dead tr'
      end
  end.

(** Some [client.stop()] is invoked while a session created from that
    client is active: created, and [destroy] has not returned for it
    ([active] holds the active sessions with their clients). *)
Fixpoint stop_while_active (active : list (client * session))
    (tr : list event) : bool :=
  match tr with
  | [] => false
  | (CCreateSession c _, Returned (VSession s)) :: tr' =>
      stop_while_active ((c, s) :: active) tr'
  | (CDestroy s, Returned _) :: tr' =>
      stop_while_active
        (List.filter (fun cs => negb (bool_decide (snd cs = s))) active) tr'
  | (CStop c, _) :: tr' =>
      existsb (fun cs => bool_decide (fst cs = c)) active
      || stop_while_active active tr'
  | _ :: tr' => stop_while_active active tr'
  end.

End Driver.

(** ** Scripted worlds *)

(** A world that answers from a fixed table: which calls raise, and the
    text of the reply, if there is one.  The client is [tt]; sessions are
    numbered. *)
Module Scripted.

Record table : Type := {
  start_raises : option exn;
  create_session_raises : option exn;
  send_and_wait_raises : option exn;
  reply : option string;
  print_raises : option exn;
  destroy_raises : option exn;
  stop_raises : option exn
}.

Definition answer {A : Type} (fault : option exn) (a : A) (t : table)
    : result A * table :=
  match fault with
  | Some e => (Raised e, t)
  | None => (Returned a, t)
  end.

#[global] Instance world : External unit nat table := {|
  CopilotClient := tt;
  client_start _ t := answer (start_raises t) tt t;
  client_create_session _ _ t := answer (create_session_raises t) 1%nat t;
  session_send_and_wait _ _ _ t :=
    answer (send_and_wait_raises t)
           (option_map (fun text => {| data := {| content := text |} |})
                       (reply t))
           t;
  session_destroy _ t := answer (destroy_raises t) tt t;
  client_stop _ t := answer (stop_raises t) tt t;
  builtin_print _ t := answer (print_raises t) tt t
|}.

(** Every call succeeds and the reply is [text]. *)
Definition healthy (text : string) : table :=
  {| start_raises := None; create_session_raises := None;
     send_and_wait_raises := None; reply := Some text;
     print_raises := None;
     destroy_raises := None; stop_raises := None |}.

(** The same world with one call made to raise. *)
Definition unreachable : table :=
  {| start_raises := Some ConnectionError; create_session_raises := None;
     send_and_wait_raises := None; reply := Some "ok"; print_raises := None;
     destroy_raises := None; stop_raises := None |}.

Definition rejected (stop_fault : option exn) : table :=
  {| start_raises := None;
     create_session_raises := Some SessionCreationError;
     send_and_wait_raises := None; reply := Some "ok"; print_raises := None;
     destroy_raises := None; stop_raises := stop_fault |}.

Definition timed_out (stop_fault : option exn) : table :=
  {| start_raises := None; create_session_raises := None;
     send_and_wait_raises := Some TimeoutError; reply := Some "ok";
     print_raises := None; destroy_raises := None;
     stop_raises := stop_fault |}.

Definition destroy_fails : table :=
  {| start_raises := None; create_session_raises := None;
     send_and_wait_raises := None; reply := Some "ok"; print_raises := None;
     destroy_raises := Some (OtherError "destroy"); stop_raises := None |}.

Definition print_fails : table :=
  {| start_raises := None; create_session_raises := None;
     send_and_wait_raises := None; reply := Some "ok";
     print_raises := Some (OtherError "BrokenPipeError");
     destroy_raises := None; stop_raises := None |}.

(** Every call returns, and [send_and_wait] returns [None]. *)
Definition no_reply (stop_fault : option exn) : table :=
  {| start_raises := None; create_session_raises := None;
     send_and_wait_raises := None; reply := None; print_raises := None;
     destroy_raises := None; stop_raises := stop_fault |}.


End Scripted.

(** ** The shapes of a run *)

Section Paths.

Context {client session W : Type}.
Context `{EqDecision client, EqDecision session}.
Context `{Ext : External client session W}.

Local Abbreviation c := (CopilotClient (client := client)).
Local Abbreviation cfg := ({[ "model" := "gpt-4.1" ]} : dict).
Local Abbreviation req := ({[ "prompt" := "Pythonでfizzbuzzを書いて" ]} : dict).
Local Abbreviation ok := (Returned VNone : result (value (session := session))).

(** What the log keeps of the outcome of a call without a result. *)
Definition logged (o : result unit) : result (value (session := session)) :=
  result_map (fun _ => VNone) o.

(** The outcome of the script from the outcome [r] of the guarded block and
    the outcome [o] of [client.stop()]. *)
Definition surfaced (r o : result unit) : result unit :=
  match o with
  | Returned _ => r
  | Raised e => Raised e
  end.

(** The seven ways through [main]: outcome, log and standard output. *)
Inductive path : result unit -> list (event (client := client)) -> string -> Prop :=
| path_start e :
    path (Raised e) [(CStart c, Raised e)] ""
| path_create_session e o :
    path (surfaced (Raised e) o)
         [(CStart c, ok); (CCreateSession c cfg, Raised e); (CStop c, logged o)]
         ""
| path_send_and_wait s e o :
    path (surfaced (Raised e) o)
         [(CStart c, ok); (CCreateSession c cfg, Returned (VSession s));
          (CSendAndWait s req (60 # 1)%Q, Raised e); (CStop c, logged o)]
         ""
| path_no_reply s o :
    path (surfaced (Raised AttributeError) o)
         [(CStart c, ok); (CCreateSession c cfg, Returned (VSession s));
          (CSendAndWait s req (60 # 1)%Q, ok); (CStop c, logged o)]
         ""
| path_print s r e o :
    path (surfaced (Raised e) o)
         [(CStart c, ok); (CCreateSession c cfg, Returned (VSession s));
          (CSendAndWait s req (60 # 1)%Q, Returned (VResponse r));
          (CPrint (content (data r)), Raised e); (CStop c, logged o)]
         ""
| path_destroy s r e o :
    path (surfaced (Raised e) o)
         [(CStart c, ok); (CCreateSession c cfg, Returned (VSession s));
          (CSendAndWait s req (60 # 1)%Q, Returned (VResponse r));
          (CPrint (content (data r)), ok); (CDestroy s, Raised e);
          (CStop c, logged o)]
         (content (data r) +:+ LF)
| path_complete s r o :
    path (surfaced (Returned tt) o)
         [(CStart c, ok); (CCreateSession c cfg, Returned (VSession s));
          (CSendAndWait s req (60 # 1)%Q, Returned (VResponse r));
          (CPrint (content (data r)), ok); (CDestroy s, ok);
          (CStop c, logged o)]
         (content (data r) +:+ LF).

(** Case analysis on the answer of the world to the next call. *)
Ltac ask_world :=
  match goal with
  | |- context [client_start ?a ?w] =>
      destruct (client_start a w) as [[[]|?] ?]
  | |- context [client_create_session ?a ?b ?w] =>
      destruct (client_create_session a b w) as [[?|?] ?]
  | |- context [session_send_and_wait ?a ?b ?d ?w] =>
      destruct (session_send_and_wait a b d w) as [[[?|]|?] ?]
  | |- context [builtin_print ?a ?w] =>
      destruct (builtin_print a w) as [[[]|?] ?]
  | |- context [session_destroy ?a ?w] =>
      destruct (session_destroy a w) as [[[]|?] ?]
  | |- context [client_stop ?a ?w] =>
      destruct (client_stop a w) as [[[]|?] ?]
  end; cbn.

Ltac take_path :=
  first
    [ apply path_start
    | apply (path_create_session _ (Returned tt))
    | apply (path_create_session _ (Raised _))
    | apply (path_send_and_wait _ _ (Returned tt))
    | apply (path_send_and_wait _ _ (Raised _))
    | apply (path_no_reply _ (Returned tt))
    | apply (path_no_reply _ (Raised _))
    | apply (path_print _ _ _ (Returned tt))
    | apply (path_print _ _ _ (Raised _))
    | apply (path_destroy _ _ _ (Returned tt))
    | apply (path_destroy _ _ _ (Raised _))
    | apply (path_complete _ _ (Returned tt))
    | apply (path_complete _ _ (Raised _)) ].

(** Every run of the script takes one of the seven paths. *)
Lemma script_path (w : W) :
  path (outcome w) (calls w) (output w).
Proof.
  unfold outcome, calls, output, script, asyncio_run, main, try_finally, bind, start, create_session,
    send_and_wait, data_content, raise, ret, destroy, stop, print, await; cbn.
  repeat ask_world; take_path.
Qed.

Ltac on_paths w :=
  generalize (script_path w);
  generalize (outcome w) (calls w) (output w);
  let P := fresh "P" in
  intros ? ? ? P; destruct P as [?|? o|? ? o|? o|? ? ? o|? ? ? o|? ? o];
  try destruct o as [[]|?]; cbn.

(** ** Cleanup after a failed request *)


(** ** Session and client lifetimes *)

(** C2, as amended: on every path no operation is invoked on a session after
    [destroy] was invoked on it.  [client.stop()] is not invoked while a
    session created from the client is active on the paths where
    [session.destroy()] returned or no session was created; when
    [send_and_wait] raises, [client.stop()] is invoked while the created
    session is still active. *)
Theorem lifetime_discipline (w : W) :
  use_after_destroy [] (calls w) = false /\
  (returned is_create_session (calls w) = false \/
   returned is_destroy (calls w) = true ->
   stop_while_active [] (calls w) = false) /\
  (is_Some (raised is_send_and_wait (calls w)) ->
   stop_while_active [] (calls w) = true).
Proof.
  on_paths w; repeat (case_bool_decide; cbn);
    try match goal with
        | Hin : _ ∈ [] |- _ => by inversion Hin
        | Hne : ?x ≠ ?x |- _ => by destruct Hne
        end;
    (split; [reflexivity|]);
    (split; [ intros [Hnone|Hdone]; try discriminate; reflexivity
            | intros [? [=]]; reflexivity ]).
Qed.

(** ** The client is always stopped *)

(** C3: once [client.start()] has returned, [client.stop()] is invoked
    exactly once, as the last call of the run, whatever the outcome of
    session creation, of the request, of printing and of session destroy. *)
Theorem stop_exactly_once (w : W) :
  returned is_start (calls w) = true ->
  invocations is_stop (calls w) = 1%nat /\
  exists o, last (calls w) = Some (CStop c, o).
Proof.
  on_paths w; intros Hstart; try discriminate; eauto.
Qed.

(** ** Failures before the request *)

(** C4, as amended: when session creation raises [SessionCreationError],
    [client.stop()] is invoked exactly once and [session.destroy()] never;
    the [SessionCreationError] propagates when [stop] returns, and the
    exception of [stop] propagates when [stop] raises. *)
Theorem session_creation_failure (w : W) :
  raised is_create_session (calls w) = Some SessionCreationError ->
  invocations is_stop (calls w) = 1%nat /\
  invocations is_destroy (calls w) = 0%nat /\
  (returned is_stop (calls w) = true -> outcome w = Raised SessionCreationError) /\
  (forall e, raised is_stop (calls w) = Some e -> outcome w = Raised e).
Proof.
  on_paths w; intros Hcreate; try discriminate;
    injection Hcreate as ->; repeat split; try discriminate;
    intros ? [=]; congruence.
Qed.

(** C5: when [client.start()] raises [ConnectionError], that call is the
    only one of the run: no session is created, neither
    [session.destroy()] nor [client.stop()] is invoked, and the
    [ConnectionError] leaves the script. *)
Theorem unreachable_service (w : W) :
  fst (client_start c w) = Raised ConnectionError ->
  outcome w = Raised ConnectionError /\
  calls w = [(CStart c, Raised ConnectionError)] /\
  invocations is_create_session (calls w) = 0%nat /\
  invocations is_destroy (calls w) = 0%nat /\
  invocations is_stop (calls w) = 0%nat /\
  exit_status (outcome w) = 1%Z.
Proof.
  unfold outcome, calls, script, asyncio_run, main, bind, start, await; cbn.
  destruct (client_start c w) as [r w']; cbn.
  intros ->; cbn. repeat split.
Qed.

(** ** The successful run *)

(** C6: a run that returns normally performs exactly six calls, all of
    which return, in this order: client start, session create,
    send-and-wait, print of the content of the response, session destroy,
    client stop. *)
Theorem successful_run_sequence (w : W) :
  outcome w = Returned tt ->
  exists (s : session) (r : response),
    calls w =
      [(CStart c, ok);
       (CCreateSession c cfg, Returned (VSession s));
       (CSendAndWait s req (60 # 1)%Q, Returned (VResponse r));
       (CPrint (content (data r)), ok);
       (CDestroy s, ok);
       (CStop c, ok)].
Proof.
  on_paths w; intros Hok; try discriminate; eauto.
Qed.



(** C8, as amended: in a run that returns normally the session is created
    with model [gpt-4.1], the one request carries the prompt of the source
    and the timeout 60, and the content of the response, whatever text it
    is, is printed before the session is destroyed and the client
    stopped. *)
Theorem reference_flow (w : W) :
  outcome w = Returned tt ->
  (forall k cf o, (CCreateSession k cf, o) ∈ calls w ->
     cf !! "model" = Some "gpt-4.1") /\
  (forall s q t o, (CSendAndWait s q t, o) ∈ calls w ->
     q !! "prompt" = Some "Pythonでfizzbuzzを書いて" /\ t = (60 # 1)%Q) /\
  exists (s : session) (r : response) pre,
    calls w = pre ++ [(CPrint (content (data r)), ok); (CDestroy s, ok);
                      (CStop c, ok)] /\
    last pre = Some (CSendAndWait s req (60 # 1)%Q, Returned (VResponse r)) /\
    output w = content (data r) +:+ LF.
Proof.
  on_paths w; intros Hok; try discriminate.
  split; [|split].
  - intros k cf o' Hin.
    repeat (apply elem_of_cons in Hin as [[=]|Hin]); subst;
      [reflexivity | by inversion Hin].
  - intros s' q t o' Hin.
    repeat (apply elem_of_cons in Hin as [[=]|Hin]); subst;
      [split; reflexivity | by inversion Hin].
  - exists s, r,
      [(CStart c, ok); (CCreateSession c cfg, Returned (VSession s));
       (CSendAndWait s req (60 # 1)%Q, Returned (VResponse r))].
    repeat split.
Qed.

(** ** Which error leaves the script *)



(** C10: when [session.destroy()] raises, the content has been printed,
    [client.stop()] is still invoked exactly once, right after the failed
    destroy, and when [stop] returns the exception of [destroy] leaves
    the script. *)
Theorem destroy_failure (w : W) (e : exn) :
  raised is_destroy (calls w) = Some e ->
  invocations is_stop (calls w) = 1%nat /\
  (returned is_stop (calls w) = true -> outcome w = Raised e) /\
  exists (s : session) (r : response) (o : result value),
    calls w =
      [(CStart c, ok);
       (CCreateSession c cfg, Returned (VSession s));
       (CSendAndWait s req (60 # 1)%Q, Returned (VResponse r));
       (CPrint (content (data r)), ok);
       (CDestroy s, Raised e);
       (CStop c, o)] /\
    output w = content (data r) +:+ LF.
Proof.
  on_paths w; intros Hdestroy; try discriminate;
    injection Hdestroy as ->;
    (split; [reflexivity|]); (split; [try discriminate; reflexivity|]);
    eauto 6.
Qed.

(** ** Further properties of the script *)

(** When [print] raises, the session is left undestroyed: the request had
    returned, [session.destroy()] is skipped, [client.stop()] is invoked
    once, and the exception of [print] leaves the script when [stop]
    returns. *)
Theorem print_failure_cleanup (w : W) (e : exn) :
  raised is_print (calls w) = Some e ->
  returned is_send_and_wait (calls w) = true /\
  invocations is_destroy (calls w) = 0%nat /\
  invocations is_stop (calls w) = 1%nat /\
  (exists e', outcome w = Raised e') /\
  (returned is_stop (calls w) = true -> outcome w = Raised e).
Proof.
  on_paths w; intros Hprint; try discriminate;
    injection Hprint as ->; repeat split; eauto; discriminate.
Qed.

(** No exception of a call is swallowed.  The script returns normally
    exactly when [session.destroy()] and [client.stop()] both returned; it
    fails whenever a call raised; and when it fails although no call
    raised, [send_and_wait] had returned [None] and the exception is the
    [AttributeError] of line 17. *)
Theorem no_error_swallowed (w : W) :
  (outcome w = Returned tt <->
   returned is_destroy (calls w) = true /\ returned is_stop (calls w) = true) /\
  (is_Some (raised any_call (calls w)) -> exists e, outcome w = Raised e) /\
  (raised any_call (calls w) = None ->
   outcome w = Returned tt \/
   (outcome w = Raised AttributeError /\
    returned is_send_and_wait (calls w) = true /\
    replied (calls w) = false)).
Proof.
  on_paths w;
    (split; [split; [intros [=] | intros [[=] [=]]]; try (split; reflexivity);
             reflexivity|]);
    (split; [intros [? [=]]; eauto | intros [=]; eauto]).
Qed.

(** [client.stop()] is invoked exactly when [client.start()] returned:
    once then, and not at all when [start] raised. *)
Theorem stop_iff_started (w : W) :
  invocations is_stop (calls w) =
    (if returned is_start (calls w) then 1%nat else 0%nat).
Proof.
  on_paths w; reflexivity.
Qed.

(** The guarded block stops at the first exception: each call of the block
    is invoked once when the call before it returned, [print] when
    [send_and_wait] returned a reply and not [None], and never
    otherwise. *)
Theorem steps_run_in_sequence (w : W) :
  invocations is_create_session (calls w) =
    (if returned is_start (calls w) then 1%nat else 0%nat) /\
  invocations is_send_and_wait (calls w) =
    (if returned is_create_session (calls w) then 1%nat else 0%nat) /\
  invocations is_print (calls w) =
    (if replied (calls w) then 1%nat else 0%nat) /\
  invocations is_destroy (calls w) =
    (if returned is_print (calls w) then 1%nat else 0%nat).
Proof.
  on_paths w; repeat split.
Qed.

(** A run makes between one and six calls, the first of which is
    [client.start()], and repeats none. *)
Theorem calls_bounded (w : W) :
  (1 <= length (calls w) <= 6)%nat /\
  (exists o, head (calls w) = Some (CStart c, o)) /\
  Forall (fun kind => (invocations kind (calls w) <= 1)%nat)
         [is_start; is_create_session; is_send_and_wait; is_print;
          is_destroy; is_stop].
Proof.
  on_paths w;
    (split; [lia|]); (split; [eauto|]); repeat constructor.
Qed.

(** Every operation on a session targets the session that
    [create_session] returned in this run. *)
Theorem session_operations_target_created_session (w : W) :
  forall ev s,
    ev ∈ calls w ->
    session_of (fst ev) = Some s ->
    (CCreateSession c cfg, Returned (VSession s)) ∈ calls w.
Proof.
  on_paths w; intros ev s' Hin Htarget;
    repeat (apply elem_of_cons in Hin as [->|Hin]);
    try (by inversion Hin); try discriminate;
    injection Htarget as ->; set_solver.
Qed.

(** Whatever [print] is called with is the content of the response that
    [send_and_wait] returned in this run. *)
Theorem printed_text_is_reply (w : W) :
  forall text out,
    (CPrint text, out) ∈ calls w ->
    exists s r,
      (CSendAndWait s req (60 # 1)%Q, Returned (VResponse r)) ∈ calls w /\
      text = content (data r).
Proof.
  on_paths w; intros printed out Hin;
    repeat (apply elem_of_cons in Hin as [[=]|Hin]);
    try (by inversion Hin); subst;
    eexists _, _;
    (split; [do 2 apply list_elem_of_further; apply list_elem_of_here
            | reflexivity]).
Qed.

(** On every run, failing or not, the calls carry the arguments of the
    source: the one client, the model [gpt-4.1], the prompt and the
    timeout 60. *)
Theorem arguments_on_every_run (w : W) :
  (forall k out, (CStart k, out) ∈ calls w -> k = c) /\
  (forall k cf out, (CCreateSession k cf, out) ∈ calls w -> k = c /\ cf = cfg) /\
  (forall s q t out, (CSendAndWait s q t, out) ∈ calls w ->
     q = req /\ t = (60 # 1)%Q) /\
  (forall k out, (CStop k, out) ∈ calls w -> k = c).
Proof.
  on_paths w; repeat split; intros;
    repeat match goal with
           | Hin : _ ∈ _ :: _ |- _ => apply elem_of_cons in Hin as [[=]|Hin]
           | Hin : _ ∈ [] |- _ => by inversion Hin
           end; subst; reflexivity.
Qed.


End Paths.

(** ** Concrete runs *)

Import Scripted.



(** C2 fails as stated: after a timeout the client is stopped while the
    session it created was never destroyed. *)
Lemma stop_with_live_session :
  ~ (use_after_destroy [] (calls (timed_out None)) = false /\
     stop_while_active [] (calls (timed_out None)) = false).
Proof.
  intros [_ Hstop]. vm_compute in Hstop. discriminate.
Qed.

Lemma lifetime_discipline_healthy :
  returned is_destroy (calls (healthy "ok")) = true /\
  stop_while_active [] (calls (healthy "ok")) = false.
Proof.
  split; [reflexivity|].
  exact (proj1 (proj2 (lifetime_discipline (healthy "ok")))
               (or_intror eq_refl)).
Defined.

Lemma stop_exactly_once_timed_out :
  returned is_start (calls (timed_out None)) = true /\
  (invocations is_stop (calls (timed_out None)) = 1%nat /\
   exists o, last (calls (timed_out None)) = Some (CStop tt, o)).
Proof.
  split; [reflexivity|].
  exact (stop_exactly_once (timed_out None) eq_refl).
Defined.

(** C4 fails as stated: when [client.stop()] raises as well, its exception
    leaves the script in place of the [SessionCreationError]. *)
Lemma creation_error_shadowed :
  ~ (raised is_create_session (calls (rejected (Some (OtherError "stop"))))
       = Some SessionCreationError ->
     invocations is_stop (calls (rejected (Some (OtherError "stop")))) = 1%nat /\
     invocations is_destroy (calls (rejected (Some (OtherError "stop")))) = 0%nat /\
     outcome (rejected (Some (OtherError "stop"))) = Raised SessionCreationError).
Proof.
  intros Hclaim. destruct (Hclaim eq_refl) as (_ & _ & Hout).
  vm_compute in Hout. discriminate.
Qed.

Lemma session_creation_failure_rejected :
  raised is_create_session (calls (rejected None)) = Some SessionCreationError /\
  (invocations is_stop (calls (rejected None)) = 1%nat /\
   invocations is_destroy (calls (rejected None)) = 0%nat /\
   (returned is_stop (calls (rejected None)) = true ->
    outcome (rejected None) = Raised SessionCreationError) /\
   (forall e, raised is_stop (calls (rejected None)) = Some e ->
    outcome (rejected None) = Raised e)).
Proof.
  split; [reflexivity|].
  exact (session_creation_failure (rejected None) eq_refl).
Defined.

Lemma unreachable_service_scripted :
  fst (client_start CopilotClient unreachable) = Raised ConnectionError /\
  (outcome unreachable = Raised ConnectionError /\
   calls unreachable = [(CStart tt, Raised ConnectionError)] /\
   invocations is_create_session (calls unreachable) = 0%nat /\
   invocations is_destroy (calls unreachable) = 0%nat /\
   invocations is_stop (calls unreachable) = 0%nat /\
   exit_status (outcome unreachable) = 1%Z).
Proof.
  split; [reflexivity|].
  exact (unreachable_service unreachable eq_refl).
Defined.

Lemma successful_run_sequence_healthy :
  outcome (healthy "ok") = Returned tt /\
  exists (s : nat) (r : response),
    calls (healthy "ok") =
      [(CStart tt, Returned VNone);
       (CCreateSession tt {[ "model" := "gpt-4.1" ]}, Returned (VSession s));
       (CSendAndWait s {[ "prompt" := "Pythonでfizzbuzzを書いて" ]} (60 # 1)%Q,
        Returned (VResponse r));
       (CPrint (content (data r)), Returned VNone);
       (CDestroy s, Returned VNone);
       (CStop tt, Returned VNone)].
Proof.
  split; [reflexivity|].
  exact (successful_run_sequence (healthy "ok") eq_refl).
Defined.



(** C8 fails as stated: the run succeeds, yet the prompt sent is not
    [write fizzbuzz], and the content printed is the empty text the
    service replied with. *)
Lemma prompt_and_content_differ :
  outcome (healthy "") = Returned tt /\
  ~ (forall s q t o, (CSendAndWait s q t, o) ∈ calls (healthy "") ->
       q !! "prompt" = Some "write fizzbuzz") /\
  ~ (forall s q t r,
       (CSendAndWait s q t, Returned (VResponse r)) ∈ calls (healthy "") ->
       content (data r) <> "").
Proof.
  split; [reflexivity|]. split.
  - intros Hprompt.
    specialize
      (Hprompt 1%nat {[ "prompt" := "Pythonでfizzbuzzを書いて" ]} (60 # 1)%Q
               (Returned (VResponse {| data := {| content := "" |} |}))).
    assert (Hsome : Some "Pythonでfizzbuzzを書いて" = Some "write fizzbuzz");
      [|discriminate Hsome].
    rewrite <- Hprompt; [reflexivity|].
    do 2 apply list_elem_of_further. apply list_elem_of_here.
  - intros Hcontent.
    apply (Hcontent 1%nat {[ "prompt" := "Pythonでfizzbuzzを書いて" ]} (60 # 1)%Q
                    {| data := {| content := "" |} |}); [|reflexivity].
    do 2 apply list_elem_of_further. apply list_elem_of_here.
Qed.

Lemma reference_flow_healthy :
  outcome (healthy "ok") = Returned tt /\
  forall k cf o, (CCreateSession k cf, o) ∈ calls (healthy "ok") ->
    cf !! "model" = Some "gpt-4.1".
Proof.
  split; [reflexivity|].
  exact (proj1 (reference_flow (healthy "ok") eq_refl)).
Defined.



Lemma destroy_failure_scripted :
  raised is_destroy (calls destroy_fails) = Some (OtherError "destroy") /\
  (invocations is_stop (calls destroy_fails) = 1%nat /\
   outcome destroy_fails = Raised (OtherError "destroy")).
Proof.
  split; [reflexivity|].
  destruct (destroy_failure destroy_fails (OtherError "destroy"))
    as (Hstop & Hout & _); [reflexivity|].
  split; [exact Hstop | exact (Hout eq_refl)].
Defined.

(** ** Concrete runs for the further properties *)

Lemma print_failure_cleanup_scripted :
  raised is_print (calls print_fails) = Some (OtherError "BrokenPipeError") /\
  (returned is_send_and_wait (calls print_fails) = true /\
   invocations is_destroy (calls print_fails) = 0%nat /\
   invocations is_stop (calls print_fails) = 1%nat /\
   (exists e', outcome print_fails = Raised e') /\
   (returned is_stop (calls print_fails) = true ->
    outcome print_fails = Raised (OtherError "BrokenPipeError"))).
Proof.
  split; [reflexivity|].
  exact (print_failure_cleanup print_fails (OtherError "BrokenPipeError") eq_refl).
Defined.

Lemma session_operations_target_created_session_healthy :
  (CDestroy 1%nat, Returned VNone) ∈ calls (healthy "ok") /\
  (CCreateSession tt {[ "model" := "gpt-4.1" ]}, Returned (VSession 1%nat))
    ∈ calls (healthy "ok").
Proof.
  assert (Hin : (CDestroy 1%nat, Returned VNone) ∈ calls (healthy "ok")).
  { do 4 apply list_elem_of_further. apply list_elem_of_here. }
  split; [exact Hin|].
  exact (session_operations_target_created_session (healthy "ok") _ 1%nat
           Hin eq_refl).
Defined.

Lemma printed_text_is_reply_healthy :
  (CPrint "ok", Returned VNone) ∈ calls (healthy "ok") /\
  exists (s : nat) (r : response),
    (CSendAndWait s {[ "prompt" := "Pythonでfizzbuzzを書いて" ]} (60 # 1)%Q,
     Returned (VResponse r)) ∈ calls (healthy "ok") /\
    "ok" = content (data r).
Proof.
  assert (Hin : (CPrint "ok", Returned VNone) ∈ calls (healthy "ok")).
  { do 3 apply list_elem_of_further. apply list_elem_of_here. }
  split; [exact Hin|].
  exact (printed_text_is_reply (healthy "ok") "ok" (Returned VNone) Hin).
Defined.

Lemma arguments_on_every_run_timed_out :
  (CSendAndWait 1%nat {[ "prompt" := "Pythonでfizzbuzzを書いて" ]} (60 # 1)%Q,
   Raised TimeoutError) ∈ calls (timed_out None) /\
  (({[ "prompt" := "Pythonでfizzbuzzを書いて" ]} : dict)
     = {[ "prompt" := "Pythonでfizzbuzzを書いて" ]} /\
   (60 # 1)%Q = (60 # 1)%Q).
Proof.
  assert (Hin : (CSendAndWait 1%nat {[ "prompt" := "Pythonでfizzbuzzを書いて" ]}
                              (60 # 1)%Q, Raised TimeoutError)
                ∈ calls (timed_out None)).
  { do 2 apply list_elem_of_further. apply list_elem_of_here. }
  split; [exact Hin|].
  exact (proj1 (proj2 (proj2 (arguments_on_every_run (timed_out None))))
           _ _ _ _ Hin).
Defined.

Lemma no_error_swallowed_no_reply :
  raised any_call (calls (no_reply None)) = None /\
  outcome (no_reply None) = Raised AttributeError.
Proof.
  assert (Hquiet : raised any_call (calls (no_reply None)) = None)
    by reflexivity.
  split; [exact Hquiet|].
  destruct (proj2 (proj2 (no_error_swallowed (no_reply None))) Hquiet)
    as [Hok|[Hfail _]]; [discriminate Hok | exact Hfail].
Defined.

